(** * OpenRouter provider factory: a shallow embedding of
    [src/openrouter-provider.ts] and the facts its specification states.

    The file follows the source top to bottom: a small model of the
    JavaScript features the provider relies on (call styles, [new.target],
    exceptions, object literals with spread), the interface imported from
    "@ai-sdk/provider-utils", the settings record, and then
    [createOpenRouter] with its local closures lifted to top-level
    definitions that take the captured [options] explicitly. *)

From stdpp Require Import base option strings gmap.

Open Scope string_scope.

(** ** JavaScript runtime notions used by the source *)

(** How a function value is invoked: [f(args)] or [new f(args)]. *)
Inductive Invocation := PlainCall | ConstructCall.

(** Truthiness of [new.target] inside a [function] body: [undefined] for a
    plain call, the constructor for a construct call. *)
Definition new_target (how : Invocation) : bool :=
  match how with
  | PlainCall => false
  | ConstructCall => true
  end.

(** The exceptions that can leave the provider.  [InvalidInvocationError]
    is the [throw new Error(...)] of [createLanguageModel];
    [MissingCredentialError] is what [loadApiKey] throws; [TypeError] is
    raised by the engine itself when [new] is applied to a value that has
    no construct behaviour. *)
Inductive Exception :=
| InvalidInvocationError (message : string)
| MissingCredentialError (description : string)
| TypeError (message : string).

(** Outcome of evaluating a call: a value or a thrown exception. *)
Inductive Completion (A : Type) :=
| Return (a : A)
| Throw (e : Exception).
Arguments Return {A} a.
Arguments Throw {A} e.

#[global] Instance Completion_ret : MRet Completion := @Return.
#[global] Instance Completion_bind : MBind Completion := fun A B f c =>
  match c with
  | Return a => f a
  | Throw e => Throw e
  end.

#[global] Instance Completion_fmap : FMap Completion := fun A B f c =>
  match c with
  | Return a => Return (f a)
  | Throw e => Throw e
  end.

(** [a ?? b] where [b] may itself be [undefined]. *)
Definition nullish {A} (a b : option A) : option A :=
  match a with
  | Some x => Some x
  | None => b
  end.

(** A [function] expression: it is callable and constructible, and its body
    sees its own [new.target].  Every body below returns an object (or
    throws), so a construct call evaluates to what the body returns. *)
Definition function {A B C} (body : bool -> A -> B -> Completion C)
    (how : Invocation) (a : A) (b : B) : Completion C :=
  body (new_target how) a b.

(** An arrow function: it has no [new.target] of its own (the body reads
    the one of the enclosing [function]) and it is not a constructor, so
    [new] applied to it throws a [TypeError] before the body runs. *)
Definition arrow {A B C} (body : A -> B -> Completion C)
    (how : Invocation) (a : A) (b : B) : Completion C :=
  match how with
  | PlainCall => body a b
  | ConstructCall => Throw (TypeError "not a constructor")
  end.

(** A property value of the headers object: the literal writes
    [options.organization] and [options.project] as they are, so a property
    can hold [undefined]. *)
Inductive HeaderValue :=
| undefined
| str (s : string).

(** [process.env]. *)
Abbreviation Env := (gmap string string).

(** The headers object; [h !! k = None] means [k] is not a property of [h],
    [h !! k = Some undefined] that it is one without a value. *)
Abbreviation Headers := (gmap string HeaderValue).

(** [{ ...obj, ...extra }] for an optional [extra]: every property of
    [extra] is written over [obj]. *)
Definition spread (extra : option (gmap string string)) (obj : Headers) : Headers :=
  match extra with
  | Some hs => (str <$> hs) ∪ obj
  | None => obj
  end.

Definition of_optional (o : option string) : HeaderValue :=
  match o with
  | Some s => str s
  | None => undefined
  end.

(** ** The interface imported from "@ai-sdk/provider-utils" *)

Module LoadApiKey.
Record args := {
  apiKey : option string;
  environmentVariableName : string;
  description : string;
}.
End LoadApiKey.

Class ProviderUtils := {
  loadApiKey : LoadApiKey.args -> Env -> Completion string;
  withoutTrailingSlash : option string -> option string;
}.

(** *** The two utilities as the specification describes them *)

Definition slash : Ascii.ascii := Ascii.Ascii true true true true false true false false.

(** Modelled from the spec: the body of [withoutTrailingSlash], a function
    of the package "@ai-sdk/provider-utils" that is not among the sources.
    The specification has the endpoint normalized by stripping a trailing
    path separator if present: one slash at the end of the string is
    removed, and nothing else. *)
Fixpoint stripTrailingSlash (s : string) : string :=
  match s with
  | EmptyString => EmptyString
  | String c r =>
      match r with
      | EmptyString => if decide (c = slash) then EmptyString else String c EmptyString
      | String _ _ => String c (stripTrailingSlash r)
      end
  end.

(** Modelled from the spec: [withoutTrailingSlash] on an optional string;
    an absent value stays absent. *)
Definition spec_withoutTrailingSlash (url : option string) : option string :=
  stripTrailingSlash <$> url.

(** Modelled from the spec: [loadApiKey], a function of the package
    "@ai-sdk/provider-utils" that is not among the sources.  It uses the
    supplied key if present, otherwise reads the named environment
    variable, and fails with a [MissingCredentialError] carrying the
    description if neither is available. *)
Definition spec_loadApiKey (a : LoadApiKey.args) (env : Env) : Completion string :=
  match LoadApiKey.apiKey a with
  | Some key => Return key
  | None =>
      match env !! LoadApiKey.environmentVariableName a with
      | Some key => Return key
      | None => Throw (MissingCredentialError (LoadApiKey.description a))
      end
  end.

Definition spec_utils : ProviderUtils :=
  {| loadApiKey := spec_loadApiKey;
     withoutTrailingSlash := spec_withoutTrailingSlash |}.

(** ** Settings and model handles *)

Inductive Compatibility := strict | compatible.

Module Options.
(** [OpenRouterProviderSettings]; every field is optional. *)
Record t {Fetch : Type} := {
  baseURL : option string;
  baseUrl : option string;
  apiKey : option string;
  organization : option string;
  project : option string;
  headers : option (gmap string string);
  compatibility : option Compatibility;
  fetch : option Fetch;
}.
Arguments t : clear implicits.

(** The object literal [{}]. *)
Definition empty {Fetch} : t Fetch :=
  {| baseURL := None; baseUrl := None; apiKey := None;
     organization := None; project := None; headers := None;
     compatibility := None; fetch := None |}.
End Options.

Module Config.
(** The third argument of both model constructors. *)
Record t {Fetch : Type} := {
  provider : string;
  url : string -> string;
  headers : Env -> Completion Headers;
  compatibility : Compatibility;
  fetch : option Fetch;
}.
Arguments t : clear implicits.
End Config.

(** Modelled from the spec: the two model classes, declared in
    "./openrouter-chat-language-model" and
    "./openrouter-completion-language-model", which are not among the
    sources.  The specification has each constructor accept a model id, a
    settings object and a runtime configuration and return an opaque
    handle, with no failure of its own; a handle records the class that was
    instantiated and the three constructor arguments. *)
Inductive LanguageModel {Settings Fetch : Type} :=
| OpenRouterChatLanguageModel
    (modelId : string) (settings : Settings) (config : Config.t Fetch)
| OpenRouterCompletionLanguageModel
    (modelId : string) (settings : Settings) (config : Config.t Fetch).
Arguments LanguageModel : clear implicits.

(** Which of the two classes a handle is an instance of. *)
Inductive Family := ChatFamily | CompletionFamily.

Definition family {Settings Fetch} (m : LanguageModel Settings Fetch) : Family :=
  match m with
  | OpenRouterChatLanguageModel _ _ _ => ChatFamily
  | OpenRouterCompletionLanguageModel _ _ _ => CompletionFamily
  end.

Definition model_id {Settings Fetch} (m : LanguageModel Settings Fetch) : string :=
  match m with
  | OpenRouterChatLanguageModel i _ _ => i
  | OpenRouterCompletionLanguageModel i _ _ => i
  end.

Definition config {Settings Fetch} (m : LanguageModel Settings Fetch) : Config.t Fetch :=
  match m with
  | OpenRouterChatLanguageModel _ _ c => c
  | OpenRouterCompletionLanguageModel _ _ c => c
  end.

(** The settings object a handle was constructed with. *)
Definition model_settings {Settings Fetch} (m : LanguageModel Settings Fetch) : Settings :=
  match m with
  | OpenRouterChatLanguageModel _ s _ => s
  | OpenRouterCompletionLanguageModel _ s _ => s
  end.

(** The four entry points of [OpenRouterProvider]: the call signature of
    the handle itself and its three properties. *)
Record OpenRouterProvider {Settings Fetch : Type} := {
  call : Invocation -> string -> option Settings -> Completion (LanguageModel Settings Fetch);
  languageModel : Invocation -> string -> option Settings -> Completion (LanguageModel Settings Fetch);
  chat : Invocation -> string -> option Settings -> Completion (LanguageModel Settings Fetch);
  completion : Invocation -> string -> option Settings -> Completion (LanguageModel Settings Fetch);
}.
Arguments OpenRouterProvider : clear implicits.

(** The four entry points of a handle, as a list. *)
Definition entry_points {Settings Fetch} (p : OpenRouterProvider Settings Fetch) :=
  [call p; languageModel p; chat p; completion p].

(** ** [createOpenRouter] *)

Section Provider.
(** [Settings] is the run-time type of a model-settings object (the two
    settings interfaces are declared outside the sources and the casts
    between them are erased), [emptySettings] the literal [{}], [Fetch]
    the type of a fetch implementation. *)
Context {Settings Fetch : Type} (emptySettings : Settings).
Context {utils : ProviderUtils}.

Implicit Types (options : Options.t Fetch) (modelId : string)
  (settings : option Settings).

Definition baseURL options : string :=
  default "https://openrouter.ai/api/v1"
    (withoutTrailingSlash
       (nullish (Options.baseURL options) (Options.baseUrl options))).

Definition compatibility options : Compatibility :=
  default compatible (Options.compatibility options).

Definition getHeaders options (env : Env) : Completion Headers :=
  key ← loadApiKey
          {| LoadApiKey.apiKey := Options.apiKey options;
             LoadApiKey.environmentVariableName := "OPENAI_API_KEY";
             LoadApiKey.description := "OpenRouter" |} env;
  Return
    (spread (Options.headers options)
       (<["OpenRouter-Project" := of_optional (Options.project options)]>
          (<["OpenRouter-Organization" := of_optional (Options.organization options)]>
             (<["Authorization" := str ("Bearer " +:+ key)]> ∅)))).

Definition createChatModel options modelId settings : LanguageModel Settings Fetch :=
  OpenRouterChatLanguageModel modelId (default emptySettings settings)
    {| Config.provider := "openrouter.chat";
       Config.url := fun path => baseURL options +:+ path;
       Config.headers := getHeaders options;
       Config.compatibility := compatibility options;
       Config.fetch := Options.fetch options |}.

Definition createCompletionModel options modelId settings : LanguageModel Settings Fetch :=
  OpenRouterCompletionLanguageModel modelId (default emptySettings settings)
    {| Config.provider := "openrouter.completion";
       Config.url := fun path => baseURL options +:+ path;
       Config.headers := getHeaders options;
       Config.compatibility := compatibility options;
       Config.fetch := Options.fetch options |}.

(** [createLanguageModel] is an arrow function declared in the body of
    [createOpenRouter]: the [new.target] it tests is the one of the
    [createOpenRouter] activation that created it, passed here as
    [newTarget]. *)
Definition createLanguageModel (newTarget : bool) options modelId settings
    : Completion (LanguageModel Settings Fetch) :=
  if newTarget then
    Throw (InvalidInvocationError
             "The OpenRouter model function cannot be called with the new keyword.")
  else if decide (modelId = "openai/gpt-3.5-turbo-instruct") then
    Return (createCompletionModel options modelId settings)
  else
    Return (createChatModel options modelId settings).

(** [provider] is a [function] expression; its body does not look at its
    own [new.target] and forwards to [createLanguageModel]. *)
Definition provider (newTarget : bool) options
    : Invocation -> string -> option Settings -> Completion (LanguageModel Settings Fetch) :=
  function (fun _ modelId settings =>
              createLanguageModel newTarget options modelId settings).

(** [createOpenRouter] is a [function] declaration, invoked in the style
    [how] with an optional settings object. *)
Definition createOpenRouter (how : Invocation) (options : option (Options.t Fetch))
    : OpenRouterProvider Settings Fetch :=
  let options := default Options.empty options in
  let newTarget := new_target how in
  {| call := provider newTarget options;
     languageModel := arrow (createLanguageModel newTarget options);
     chat := arrow (fun modelId settings => Return (createChatModel options modelId settings));
     completion := arrow (fun modelId settings => Return (createCompletionModel options modelId settings)) |}.

(** The exported default instance. *)
Definition openrouter : OpenRouterProvider Settings Fetch :=
  createOpenRouter PlainCall
    (Some {| Options.baseURL := None; Options.baseUrl := None;
             Options.apiKey := None; Options.organization := None;
             Options.project := None; Options.headers := None;
             Options.compatibility := Some strict; Options.fetch := None |}).
End Provider.

(** ** Auxiliary notions for stating the facts *)

(** Whether the last character of [s] is a slash. *)
Fixpoint ends_with_slash (s : string) : bool :=
  match s with
  | EmptyString => false
  | String c r =>
      match r with
      | EmptyString => bool_decide (c = slash)
      | String _ _ => ends_with_slash r
      end
  end.

(** The entry of [options.headers] under [name], if any. *)
Definition extra_header {Fetch} (o : Options.t Fetch) (name : string) : option string :=
  Options.headers o ≫= (.!! name).

(** [{ apiKey: "k1", organization: "org1" }]. *)
Definition key_and_organization {Fetch} : Options.t Fetch :=
  {| Options.baseURL := None; Options.baseUrl := None;
     Options.apiKey := Some "k1"; Options.organization := Some "org1";
     Options.project := None; Options.headers := None;
     Options.compatibility := None; Options.fetch := None |}.

(** [{ apiKey: "k1", headers: { Authorization: "Basic abc" } }]. *)
Definition key_and_custom_authorization {Fetch} : Options.t Fetch :=
  {| Options.baseURL := None; Options.baseUrl := None;
     Options.apiKey := Some "k1"; Options.organization := None;
     Options.project := None;
     Options.headers := Some {[ "Authorization" := "Basic abc" ]};
     Options.compatibility := None; Options.fetch := None |}.

(** [{ headers: { "X-Title": "demo" } }]: no key in the settings. *)
Definition no_key {Fetch} : Options.t Fetch :=
  {| Options.baseURL := None; Options.baseUrl := None;
     Options.apiKey := None; Options.organization := None;
     Options.project := None;
     Options.headers := Some {[ "X-Title" := "demo" ]};
     Options.compatibility := None; Options.fetch := None |}.

(** [{ baseURL: "https://x.test/v1/" }]. *)
Definition custom_endpoint {Fetch} : Options.t Fetch :=
  {| Options.baseURL := Some "https://x.test/v1/"; Options.baseUrl := None;
     Options.apiKey := None; Options.organization := None;
     Options.project := None; Options.headers := None;
     Options.compatibility := None; Options.fetch := None |}.

(** [{ baseUrl: "https://y.test/api///" }]: the deprecated alias alone. *)
Definition legacy_alias_endpoint {Fetch} : Options.t Fetch :=
  {| Options.baseURL := None; Options.baseUrl := Some "https://y.test/api///";
     Options.apiKey := None; Options.organization := None;
     Options.project := None; Options.headers := None;
     Options.compatibility := None; Options.fetch := None |}.

(** ** Facts that depend only on the code of the provider

    They hold for every implementation of the imported utilities, every
    type of settings objects and every type of fetch implementations. *)

Section ProviderFacts.
Context {Settings Fetch : Type} (emptySettings : Settings).
Context {utils : ProviderUtils}.

Implicit Types (options : option (Options.t Fetch)) (modelId : string)
  (settings : option Settings) (how : Invocation).

Abbreviation legacy := "openai/gpt-3.5-turbo-instruct" (only parsing).

Lemma createLanguageModel_plain (o : Options.t Fetch) modelId settings :
  createLanguageModel emptySettings false o modelId settings =
  Return (if decide (modelId = legacy)
          then createCompletionModel emptySettings o modelId settings
          else createChatModel emptySettings o modelId settings).
Proof. unfold createLanguageModel. by destruct (decide _). Qed.

Lemma call_unfold how how' options modelId settings :
  call (createOpenRouter emptySettings how options) how' modelId settings =
  createLanguageModel emptySettings (new_target how)
    (default Options.empty options) modelId settings.
Proof. reflexivity. Qed.

Lemma languageModel_unfold how options modelId settings :
  languageModel (createOpenRouter emptySettings how options) PlainCall modelId settings =
  createLanguageModel emptySettings (new_target how)
    (default Options.empty options) modelId settings.
Proof. reflexivity. Qed.

(** C1. On a provider obtained by calling [createOpenRouter], the handle
    called as a plain function and [.languageModel] both return a model
    for every model id and every optional settings object; that model is a
    Completion model exactly when the id is the string
    "openai/gpt-3.5-turbo-instruct" (compared as it is, without trimming
    or case folding) and a Chat model for every other id. *)
Theorem dispatch_on_model_id options modelId settings :
  let p := createOpenRouter emptySettings PlainCall options in
  Forall (λ entry,
            ∃ m, entry PlainCall modelId settings = Return m
                 ∧ model_id m = modelId
                 ∧ (family m = CompletionFamily ↔ modelId = legacy)
                 ∧ (family m = ChatFamily ↔ modelId ≠ legacy))
         [call p; languageModel p].
Proof.
  intros p. subst p.
  repeat apply Forall_cons_2; [| | apply Forall_nil_2];
    rewrite ?call_unfold, ?languageModel_unfold, createLanguageModel_plain;
    destruct (decide (modelId = legacy)) as [Heq | Hne];
    eexists; (split; [reflexivity |]); simpl; naive_solver.
Qed.

(** The comparison neither trims nor folds case. *)
Example dispatch_is_untrimmed options settings :
  family <$> call (createOpenRouter emptySettings PlainCall options) PlainCall
               " openai/gpt-3.5-turbo-instruct" settings = Return ChatFamily.
Proof. reflexivity. Qed.

Example dispatch_is_case_sensitive options settings :
  family <$> call (createOpenRouter emptySettings PlainCall options) PlainCall
               "OpenAI/gpt-3.5-turbo-instruct" settings = Return ChatFamily.
Proof. reflexivity. Qed.

(** The guard of [createLanguageModel] reads the [new.target] of the
    enclosing [createOpenRouter]; how the handle itself is invoked makes no
    difference to what the handle returns. *)
Lemma call_ignores_own_invocation how options modelId settings :
  call (createOpenRouter emptySettings how options) ConstructCall modelId settings =
  call (createOpenRouter emptySettings how options) PlainCall modelId settings.
Proof. reflexivity. Qed.

(** [new provider.languageModel(...)] is stopped by the engine, not by
    the guard: an arrow function is not a constructor. *)
Lemma languageModel_construct how options modelId settings :
  languageModel (createOpenRouter emptySettings how options) ConstructCall modelId settings =
  Throw (TypeError "not a constructor").
Proof. reflexivity. Qed.

(** The guard fires when the factory itself was invoked with [new], and
    then for every later call of the handle, plain calls included. *)
Lemma guard_follows_factory_invocation options how modelId settings :
  call (createOpenRouter emptySettings ConstructCall options) how modelId settings =
  Throw (InvalidInvocationError
           "The OpenRouter model function cannot be called with the new keyword.").
Proof. reflexivity. Qed.

(** C2. What the code does on a construct call.  On a provider made by a
    plain call of the factory, [new provider(modelId, settings)] is not
    refused for any argument list: it evaluates to the very model the plain
    call returns.  [new provider.languageModel(...)] does fail, with the
    engine's [TypeError] and before the guard is reached. *)
Theorem construct_call_is_not_refused options modelId settings :
  let p := createOpenRouter emptySettings PlainCall options in
  call p ConstructCall modelId settings = call p PlainCall modelId settings
  ∧ (∃ m, call p ConstructCall modelId settings = Return m
          ∧ model_id m = modelId)
  ∧ languageModel p ConstructCall modelId settings =
    Throw (TypeError "not a constructor").
Proof.
  intros p. subst p. split; [reflexivity | split; [| reflexivity]].
  rewrite call_unfold, createLanguageModel_plain.
  destruct (decide (modelId = legacy)); eexists; split; reflexivity.
Qed.

(** C6. For every model id, the legacy completion id included, [.chat]
    constructs a Chat model and [.completion] a Completion model for that
    id; neither looks at the id. *)
Theorem chat_and_completion_fixed_family how options modelId settings :
  let p := createOpenRouter emptySettings how options in
  chat p PlainCall modelId settings =
    Return (createChatModel emptySettings (default Options.empty options) modelId settings)
  ∧ family <$> chat p PlainCall modelId settings = Return ChatFamily
  ∧ model_id <$> chat p PlainCall modelId settings = Return modelId
  ∧ completion p PlainCall modelId settings =
    Return (createCompletionModel emptySettings (default Options.empty options) modelId settings)
  ∧ family <$> completion p PlainCall modelId settings = Return CompletionFamily
  ∧ model_id <$> completion p PlainCall modelId settings = Return modelId.
Proof. repeat split. Qed.

Example chat_on_legacy_id options settings :
  family <$> chat (createOpenRouter emptySettings PlainCall options) PlainCall
               legacy settings = Return ChatFamily.
Proof. reflexivity. Qed.

(** C8. For every model id and settings, the handle called as a plain
    function and [.languageModel] run the same dispatch function on the
    same captured configuration and return equal handles. *)
Theorem call_agrees_with_languageModel how options modelId settings :
  let p := createOpenRouter emptySettings how options in
  call p PlainCall modelId settings = languageModel p PlainCall modelId settings
  ∧ call p PlainCall modelId settings =
    createLanguageModel emptySettings (new_target how)
      (default Options.empty options) modelId settings.
Proof. split; reflexivity. Qed.

Lemma entry_points_compatibility options modelId settings entry :
  entry ∈ entry_points (createOpenRouter emptySettings PlainCall options) →
  Config.compatibility ∘ config <$> entry PlainCall modelId settings =
  Return (compatibility (default Options.empty options)).
Proof.
  intros Hentry. apply list_elem_of_In in Hentry.
  destruct Hentry as [<- | [<- | [<- | [<- | []]]]]; try reflexivity;
    rewrite ?call_unfold, ?languageModel_unfold, createLanguageModel_plain;
    by destruct (decide _).
Qed.

(** C9. Every model made by a provider carries the compatibility mode of
    the settings when one was supplied and "compatible" when none was;
    every model made by the exported default instance carries "strict". *)
Theorem compatibility_mode_resolution (o : Options.t Fetch) modelId settings :
  let mode_of entry :=
    Config.compatibility ∘ config <$> entry PlainCall modelId settings in
  Forall (λ entry, mode_of entry =
                   Return (match Options.compatibility o with
                           | Some mode => mode
                           | None => compatible
                           end))
         (entry_points (createOpenRouter emptySettings PlainCall (Some o)))
  ∧ Forall (λ entry, mode_of entry = Return compatible)
      (entry_points (createOpenRouter (Fetch:=Fetch) emptySettings PlainCall None))
  ∧ Forall (λ entry, mode_of entry = Return strict)
      (entry_points (openrouter (Fetch:=Fetch) emptySettings)).
Proof.
  intros mode_of. subst mode_of.
  split; [| split]; apply Forall_forall; intros entry Hentry;
    rewrite (entry_points_compatibility _ _ _ _ Hentry); reflexivity.
Qed.
End ProviderFacts.

(** ** Facts about the spec-modelled utilities *)

Lemma slash_is_slash : String slash EmptyString = "/".
Proof. reflexivity. Qed.

Lemma strip_app_slash s : stripTrailingSlash (s +:+ "/") = s.
Proof.
  induction s as [| c r IH]; [reflexivity |].
  change (String c r +:+ "/") with (String c (r +:+ "/")).
  destruct r as [| c' r']; [reflexivity |].
  change (String c' r' +:+ "/") with (String c' (r' +:+ "/")) in *.
  cbn [stripTrailingSlash]. cbn [stripTrailingSlash] in IH. by rewrite IH.
Qed.

Lemma strip_fixed s : ends_with_slash s = false → stripTrailingSlash s = s.
Proof.
  induction s as [| c r IH]; [done |].
  cbn [ends_with_slash stripTrailingSlash]. destruct r as [| c' r'].
  - intros Hc. apply bool_decide_eq_false in Hc. by case_decide.
  - intros Hr. by rewrite (IH Hr).
Qed.

Lemma ends_with_slash_true s :
  ends_with_slash s = true → ∃ stem, s = stem +:+ "/".
Proof.
  induction s as [| c r IH]; [done |].
  cbn [ends_with_slash]. destruct r as [| c' r'].
  - intros Hc. apply bool_decide_eq_true in Hc. subst c. by exists EmptyString.
  - intros Hr. destruct (IH Hr) as [stem Hstem].
    exists (String c stem). by rewrite Hstem.
Qed.

Lemma app_slash_ne s : s +:+ "/" ≠ s.
Proof.
  induction s as [| c r IH]; [discriminate |].
  change (String c r +:+ "/") with (String c (r +:+ "/")).
  intros [= Heq]. by apply IH.
Qed.

(** Stripping a second time changes nothing exactly when the first pass
    left no slash at the end. *)
Lemma strip_twice s :
  stripTrailingSlash (stripTrailingSlash s) = stripTrailingSlash s
  ↔ ends_with_slash (stripTrailingSlash s) = false.
Proof.
  split; [| apply strip_fixed].
  intros Htwice. destruct (ends_with_slash (stripTrailingSlash s)) eqn:Hends; [| done].
  destruct (ends_with_slash_true _ Hends) as [stem Hstem].
  rewrite Hstem, strip_app_slash in Htwice.
  by destruct (app_slash_ne stem).
Qed.

(** ** Facts about the headers object

    The first group holds for every implementation of [loadApiKey]. *)

Section HeaderFacts.
Context {Fetch : Type} {utils : ProviderUtils}.

Implicit Types (o : Options.t Fetch) (env : Env) (h : Headers) (name : string).

Lemma spread_lookup (extra : option (gmap string string)) (obj : Headers) name :
  spread extra obj !! name =
  match extra ≫= (.!! name) with
  | Some value => Some (str value)
  | None => obj !! name
  end.
Proof.
  destruct extra as [hs |]; [| reflexivity].
  cbn [spread mbind option_bind]. rewrite lookup_union, lookup_fmap.
  destruct (hs !! name) as [value |]; cbn; [| by rewrite (left_id None _)].
  by destruct (obj !! name).
Qed.

Lemma getHeaders_Return o env h :
  getHeaders o env = Return h →
  ∃ key,
    loadApiKey {| LoadApiKey.apiKey := Options.apiKey o;
                  LoadApiKey.environmentVariableName := "OPENAI_API_KEY";
                  LoadApiKey.description := "OpenRouter" |} env = Return key
    ∧ ∀ name,
        h !! name =
        match extra_header o name with
        | Some value => Some (str value)
        | None =>
            (<["OpenRouter-Project" := of_optional (Options.project o)]>
               (<["OpenRouter-Organization" := of_optional (Options.organization o)]>
                  (<["Authorization" := str ("Bearer " +:+ key)]> (∅ : Headers)))) !! name
        end.
Proof.
  unfold getHeaders. destruct (loadApiKey _ env) as [key | e]; [| done].
  intros [= <-]. exists key. split; [done |].
  intros name. apply spread_lookup.
Qed.

Lemma extraHeaders_precedence_lookup o env h name (value : string) :
  extra_header o name = Some value →
  getHeaders o env = Return h →
  h !! name = Some (str value).
Proof.
  intros Hextra Hh. apply getHeaders_Return in Hh as (key & _ & Hlookup).
  by rewrite Hlookup, Hextra.
Qed.

(** C7. Whenever the header computation produces a mapping, every entry of
    [options.headers] appears in it with its own value, also under a name
    that the literal wrote before the spread (such as Authorization). *)
Theorem extraHeaders_take_precedence o env h (hs : gmap string string) name (value : string) :
  Options.headers o = Some hs →
  hs !! name = Some value →
  getHeaders o env = Return h →
  h !! name = Some (str value).
Proof.
  intros Hheaders Hentry. apply extraHeaders_precedence_lookup.
  unfold extra_header. by rewrite Hheaders.
Qed.

(** C4, amended. For the settings [{ apiKey: "k1", organization: "org1" }],
    once the key lookup hands back the supplied key, the headers object has
    exactly three properties: Authorization with "Bearer k1",
    OpenRouter-Organization with "org1", and OpenRouter-Project, which is
    present and holds [undefined]. *)
Theorem headers_of_key_and_organization env :
  loadApiKey {| LoadApiKey.apiKey := Some "k1";
                LoadApiKey.environmentVariableName := "OPENAI_API_KEY";
                LoadApiKey.description := "OpenRouter" |} env = Return "k1" →
  ∃ h, getHeaders (Fetch := Fetch) key_and_organization env = Return h
       ∧ h = {[ "Authorization" := str "Bearer k1";
                "OpenRouter-Organization" := str "org1";
                "OpenRouter-Project" := undefined ]}
       ∧ h !! "Authorization" = Some (str "Bearer k1")
       ∧ h !! "OpenRouter-Organization" = Some (str "org1")
       ∧ h !! "OpenRouter-Project" = Some undefined
       ∧ dom h = {[ "Authorization"; "OpenRouter-Organization"; "OpenRouter-Project" ]}.
Proof.
  intros Hload. unfold getHeaders. cbn [Options.apiKey key_and_organization].
  rewrite Hload. eexists. split; [reflexivity |]. repeat split.
Qed.

(** The project property is written by the literal itself, so it is there
    whenever a headers object is produced at all. *)
Lemma project_property_always_written o env h :
  extra_header o "OpenRouter-Project" = None →
  getHeaders o env = Return h →
  h !! "OpenRouter-Project" = Some (of_optional (Options.project o)).
Proof.
  intros Hextra Hh. apply getHeaders_Return in Hh as (key & _ & Hlookup).
  by rewrite Hlookup, Hextra.
Qed.

(** C10. With no [apiKey] in the settings, the key is whatever [loadApiKey]
    answers for the environment variable named "OPENAI_API_KEY" under the
    description "OpenRouter"; with the lookup utility of the specification,
    only that variable of the environment is read, and when it is unset the
    failure carries the description "OpenRouter". *)
Theorem key_lookup_names o env :
  Options.apiKey o = None →
  getHeaders o env =
    (key ← loadApiKey {| LoadApiKey.apiKey := None;
                         LoadApiKey.environmentVariableName := "OPENAI_API_KEY";
                         LoadApiKey.description := "OpenRouter" |} env;
     Return
       (spread (Options.headers o)
          (<["OpenRouter-Project" := of_optional (Options.project o)]>
             (<["OpenRouter-Organization" := of_optional (Options.organization o)]>
                (<["Authorization" := str ("Bearer " +:+ key)]> ∅)))))
  ∧ (∀ env', env' !! "OPENAI_API_KEY" = env !! "OPENAI_API_KEY" →
       getHeaders (utils := spec_utils) o env' = getHeaders (utils := spec_utils) o env)
  ∧ (env !! "OPENAI_API_KEY" = None →
       getHeaders (utils := spec_utils) o env =
       Throw (MissingCredentialError "OpenRouter")).
Proof.
  intros Hkey. split; [| split].
  - unfold getHeaders. by rewrite Hkey.
  - intros env' Henv. unfold getHeaders. cbn. unfold spec_loadApiKey. cbn.
    by rewrite Hkey, Henv.
  - intros Henv. unfold getHeaders. cbn. unfold spec_loadApiKey. cbn.
    by rewrite Hkey, Henv.
Qed.
End HeaderFacts.

(** The second group is about the key resolution itself and so about
    [loadApiKey] as the specification describes it. *)

Section SpecifiedUtilities.
Context {Fetch : Type}.
Existing Instance spec_utils.

Implicit Types (o : Options.t Fetch) (env : Env).

(** C3, amended. The Authorization header is the entry of [options.headers]
    under that name when there is one; otherwise it is "Bearer " followed by
    [options.apiKey] when that is present, and by the value of the
    environment variable when it is not.  When neither key is available the
    computation fails with a [MissingCredentialError] whose description is
    the provider's name, whatever [options.headers] holds. *)
Theorem authorization_header o env :
  match Options.apiKey o, env !! "OPENAI_API_KEY" with
  | Some key, _ | None, Some key =>
      ∃ h, getHeaders o env = Return h
           ∧ h !! "Authorization" =
             Some (str (default ("Bearer " +:+ key) (extra_header o "Authorization")))
  | None, None =>
      getHeaders o env = Throw (MissingCredentialError "OpenRouter")
  end.
Proof.
  assert (∀ key,
    loadApiKey {| LoadApiKey.apiKey := Options.apiKey o;
                  LoadApiKey.environmentVariableName := "OPENAI_API_KEY";
                  LoadApiKey.description := "OpenRouter" |} env = Return key →
    ∃ h, getHeaders o env = Return h
         ∧ h !! "Authorization" =
           Some (str (default ("Bearer " +:+ key) (extra_header o "Authorization"))))
    as Hfound.
  { intros key Hload. unfold getHeaders. rewrite Hload.
    eexists. split; [reflexivity |].
    rewrite spread_lookup. fold (extra_header o "Authorization").
    by destruct (extra_header o "Authorization"). }
  destruct (Options.apiKey o) as [key |] eqn:Hkey.
  - apply Hfound. cbn. unfold spec_loadApiKey. cbn. by rewrite ?Hkey.
  - destruct (env !! "OPENAI_API_KEY") as [key |] eqn:Henv.
    + apply Hfound. cbn. unfold spec_loadApiKey. cbn. by rewrite ?Hkey, ?Henv.
    + unfold getHeaders. cbn. unfold spec_loadApiKey. cbn. by rewrite ?Hkey, ?Henv.
Qed.

End SpecifiedUtilities.

(** ** The resolved endpoint *)

Section BaseURLFacts.
Context {Fetch : Type}.

Implicit Types (o : Options.t Fetch).

(** Whatever the stripping utility does, it is applied to [options.baseURL]
    when that is present and to [options.baseUrl] only otherwise, and the
    fixed endpoint stands in when the utility answers [undefined]. *)
Lemma baseURL_precedence {utils : ProviderUtils} o :
  baseURL o =
  default "https://openrouter.ai/api/v1"
    (withoutTrailingSlash
       (match Options.baseURL o with
        | Some url => Some url
        | None => Options.baseUrl o
        end)).
Proof. reflexivity. Qed.

Existing Instance spec_utils.

(** C5, amended. [options.baseURL] is preferred, the deprecated
    [options.baseUrl] is used only when it is absent, and the fixed
    endpoint, which has no trailing slash, when both are.  Of a supplied
    value exactly one trailing slash is stripped: a value that is a stem
    followed by a slash resolves to the stem, whatever the stem ends in,
    and a value without a trailing slash resolves to itself.  Stripping
    twice equals stripping once exactly when the first pass left no slash
    at the end. *)
Theorem baseURL_resolution o :
  baseURL o =
    match Options.baseURL o, Options.baseUrl o with
    | Some url, _ | None, Some url => stripTrailingSlash url
    | None, None => "https://openrouter.ai/api/v1"
    end
  ∧ ends_with_slash "https://openrouter.ai/api/v1" = false
  ∧ (∀ stem,
       nullish (Options.baseURL o) (Options.baseUrl o) = Some (stem +:+ "/") →
       baseURL o = stem)
  ∧ (∀ url,
       ends_with_slash url = false →
       nullish (Options.baseURL o) (Options.baseUrl o) = Some url →
       baseURL o = url)
  ∧ (∀ url,
       withoutTrailingSlash (withoutTrailingSlash (Some url)) = withoutTrailingSlash (Some url)
       ↔ ends_with_slash (stripTrailingSlash url) = false).
Proof.
  split; [| split; [| split; [| split]]].
  - unfold baseURL. by destruct (Options.baseURL o), (Options.baseUrl o).
  - reflexivity.
  - intros stem Hsupplied. unfold baseURL. rewrite Hsupplied. cbn.
    apply strip_app_slash.
  - intros url Hurl Hsupplied. unfold baseURL. rewrite Hsupplied. cbn.
    by apply strip_fixed.
  - intros url. cbn. rewrite <- strip_twice. split; congruence.
Qed.

(** The scenario of the specification: the slash of "https://x.test/v1/" is
    stripped and the path appended without doubling it. *)
Example custom_endpoint_chat_url {Settings} (emptySettings : Settings) :
  (λ m, Config.url (config m) "/chat") <$>
    chat (createOpenRouter emptySettings PlainCall (Some (custom_endpoint (Fetch := Fetch))))
      PlainCall "foo/bar" None
  = Return "https://x.test/v1/chat".
Proof. reflexivity. Qed.
(** The deprecated alias is used when [baseURL] is absent, and of a run of
    slashes only the last one goes. *)
Example legacy_alias_endpoint_resolved :
  baseURL (legacy_alias_endpoint (Fetch := Fetch)) = "https://y.test/api//".
Proof. reflexivity. Qed.
End BaseURLFacts.

(** ** Concrete runs *)

(** C2 at a concrete input: [new provider("openai/gpt-4o")] on
    [createOpenRouter()] evaluates to a Chat model. *)
Example new_provider_returns_chat_model :
  family <$> call (createOpenRouter (Fetch := unit) (utils := spec_utils) tt PlainCall None)
               ConstructCall "openai/gpt-4o" None
  = Return ChatFamily.
Proof. reflexivity. Qed.

(** C5 as stated fails: of the three slashes that end
    [{ baseUrl: "https://y.test/api///" }] one is stripped, the resolved
    endpoint still ends in a slash, and stripping it again gives something
    else. *)
Lemma second_trailing_slash_survives :
  baseURL (utils := spec_utils) (legacy_alias_endpoint (Fetch := unit))
    = "https://y.test/api//"
  ∧ ends_with_slash (baseURL (utils := spec_utils) (legacy_alias_endpoint (Fetch := unit)))
    = true
  ∧ withoutTrailingSlash (ProviderUtils := spec_utils)
      (withoutTrailingSlash (ProviderUtils := spec_utils) (Some "https://y.test/api///"))
    = Some "https://y.test/api/"
  ∧ withoutTrailingSlash (ProviderUtils := spec_utils)
      (withoutTrailingSlash (ProviderUtils := spec_utils) (Some "https://y.test/api///"))
    ≠ withoutTrailingSlash (ProviderUtils := spec_utils) (Some "https://y.test/api///").
Proof. repeat split. discriminate. Qed.

(** C3 as stated fails: with [{ apiKey: "k1", headers: { Authorization:
    "Basic abc" } }] the key is present and the Authorization header is not
    "Bearer k1". *)
Lemma authorization_is_not_bearer_of_key :
  Options.apiKey (key_and_custom_authorization (Fetch := unit)) = Some "k1"
  ∧ (∃ h : Headers,
       getHeaders (utils := spec_utils) (key_and_custom_authorization (Fetch := unit)) ∅
         = Return h
       ∧ h !! "Authorization" = Some (str "Basic abc")
       ∧ h !! "Authorization" ≠ Some (str "Bearer k1"))
  ∧ (∀ (utils : ProviderUtils) (env : Env) (h : Headers),
       getHeaders (key_and_custom_authorization (Fetch := unit)) env = Return h →
       h !! "Authorization" ≠ Some (str "Bearer k1")).
Proof.
  split; [reflexivity |]. split.
  - eexists. repeat split. discriminate.
  - intros utils env h Hh.
    rewrite (extraHeaders_precedence_lookup
               (key_and_custom_authorization (Fetch := unit)) env h
               "Authorization" "Basic abc");
      [discriminate | reflexivity | exact Hh].
Qed.

(** C4 as stated fails: with [{ apiKey: "k1", organization: "org1" }] the
    headers object does have the project property. *)
Lemma project_key_is_present :
  (∃ h : Headers,
     getHeaders (utils := spec_utils) (key_and_organization (Fetch := unit)) ∅ = Return h
     ∧ h !! "OpenRouter-Project" = Some undefined
     ∧ h !! "OpenRouter-Project" ≠ None)
  ∧ (∀ (utils : ProviderUtils) (env : Env) (h : Headers),
       getHeaders (key_and_organization (Fetch := unit)) env = Return h →
       h !! "OpenRouter-Project" ≠ None).
Proof.
  split.
  - eexists. repeat split. discriminate.
  - intros utils env h Hh.
    by rewrite (project_property_always_written
                  (key_and_organization (Fetch := unit)) env h eq_refl Hh).
Qed.

(** C4 at a concrete input: the lookup of the specification hands back the
    supplied key, whatever the environment. *)
Lemma headers_of_key_and_organization_witness :
  ∃ h : Headers,
    getHeaders (utils := spec_utils) (key_and_organization (Fetch := unit)) ∅ = Return h
    ∧ h !! "Authorization" = Some (str "Bearer k1")
    ∧ h !! "OpenRouter-Organization" = Some (str "org1")
    ∧ h !! "OpenRouter-Project" = Some undefined.
Proof.
  destruct (headers_of_key_and_organization (Fetch := unit) (utils := spec_utils) ∅ eq_refl)
    as (h & Hh & _ & Hauth & Horg & Hproject & _).
  exists h. repeat split; assumption.
Defined.

(** C7 at a concrete input: a custom Authorization wins over the computed
    one. *)
Lemma extraHeaders_take_precedence_witness :
  ∃ h : Headers,
    getHeaders (utils := spec_utils) (key_and_custom_authorization (Fetch := unit)) ∅
      = Return h
    ∧ h !! "Authorization" = Some (str "Basic abc").
Proof.
  eexists. split; [reflexivity |].
  apply (extraHeaders_take_precedence (utils := spec_utils)
           (key_and_custom_authorization (Fetch := unit)) ∅ _
           {[ "Authorization" := "Basic abc" ]});
    reflexivity.
Defined.

(** C10 at a concrete input: no key in the settings and only
    OPENROUTER_API_KEY set in the environment. *)
Lemma key_lookup_names_witness :
  Options.apiKey (no_key (Fetch := unit)) = None
  ∧ getHeaders (utils := spec_utils) (no_key (Fetch := unit))
      {[ "OPENROUTER_API_KEY" := "sk-or-1" ]}
    = Throw (MissingCredentialError "OpenRouter").
Proof.
  split; [reflexivity |].
  apply (key_lookup_names (utils := spec_utils) (no_key (Fetch := unit))
           {[ "OPENROUTER_API_KEY" := "sk-or-1" ]} eq_refl).
  reflexivity.
Defined.

(** ** Further facts about the models a provider builds

    They are read off [createChatModel], [createCompletionModel],
    [createLanguageModel] and [provider], and hold for every implementation
    of the imported utilities. *)

Section ModelFacts.
Context {Settings Fetch : Type} (emptySettings : Settings).
Context {utils : ProviderUtils}.

Implicit Types (options : option (Options.t Fetch)) (modelId : string)
  (settings : option Settings) (how : Invocation)
  (m : LanguageModel Settings Fetch).

Abbreviation legacy_id := "openai/gpt-3.5-turbo-instruct" (only parsing).

(** Whatever entry point built a model, and in whatever style it was
    invoked, the model is the one [createChatModel] or
    [createCompletionModel] builds from the arguments. *)
Lemma entry_Return_cases how options how' modelId settings entry m :
  entry ∈ entry_points (createOpenRouter emptySettings how options) →
  entry how' modelId settings = Return m →
  m = createChatModel emptySettings (default Options.empty options) modelId settings
  ∨ m = createCompletionModel emptySettings (default Options.empty options) modelId settings.
Proof.
  intros Hentry Hm. apply list_elem_of_In in Hentry.
  destruct Hentry as [<- | [<- | [<- | [<- | []]]]].
  - rewrite call_unfold in Hm. unfold createLanguageModel in Hm.
    destruct (new_target how); [discriminate |].
    destruct (decide _); injection Hm as <-; auto.
  - destruct how'; [| discriminate].
    rewrite languageModel_unfold in Hm. unfold createLanguageModel in Hm.
    destruct (new_target how); [discriminate |].
    destruct (decide _); injection Hm as <-; auto.
  - destruct how'; [| discriminate]. injection Hm as <-. auto.
  - destruct how'; [| discriminate]. injection Hm as <-. auto.
Qed.

(** X1. The endpoint and the compatibility mode are resolved once, when
    the provider is made: whichever of the four entry points returned a
    model, its URL builder prepends the endpoint resolved from the settings
    the factory was given, and its compatibility mode is the one resolved
    from them. *)
Theorem models_share_endpoint_and_mode how options how' modelId settings entry m :
  entry ∈ entry_points (createOpenRouter emptySettings how options) →
  entry how' modelId settings = Return m →
  (∀ path, Config.url (config m) path = baseURL (default Options.empty options) +:+ path)
  ∧ Config.compatibility (config m) = compatibility (default Options.empty options).
Proof.
  intros Hentry Hm.
  destruct (entry_Return_cases _ _ _ _ _ _ _ Hentry Hm) as [-> | ->];
    repeat split.
Qed.

(** X2. The provider tag of a model tells its class: "openrouter.chat" on
    every Chat model and "openrouter.completion" on every Completion model
    that an entry point returns. *)
Theorem provider_tag_matches_family how options how' modelId settings entry m :
  entry ∈ entry_points (createOpenRouter emptySettings how options) →
  entry how' modelId settings = Return m →
  Config.provider (config m) =
  match family m with
  | ChatFamily => "openrouter.chat"
  | CompletionFamily => "openrouter.completion"
  end.
Proof.
  intros Hentry Hm.
  by destruct (entry_Return_cases _ _ _ _ _ _ _ Hentry Hm) as [-> | ->].
Qed.

(** X3. Every entry point hands its arguments on unchanged: the model
    carries the model id it was asked for, the settings object when one was
    passed and the empty object when none was. *)
Theorem arguments_are_forwarded how options how' modelId settings entry m :
  entry ∈ entry_points (createOpenRouter emptySettings how options) →
  entry how' modelId settings = Return m →
  model_id m = modelId
  ∧ model_settings m =
    match settings with
    | Some given => given
    | None => emptySettings
    end.
Proof.
  intros Hentry Hm.
  destruct (entry_Return_cases _ _ _ _ _ _ _ Hentry Hm) as [-> | ->];
    by destruct settings.
Qed.

(** X5. The handle called with a model id is [.completion] called with the
    same arguments when the id is the legacy one and [.chat] called with
    them otherwise: the models are equal, configuration included.  The
    same holds for [.languageModel]. *)
Theorem call_is_completion_or_chat how options modelId settings :
  let p := createOpenRouter emptySettings PlainCall options in
  call p how modelId settings =
    (if decide (modelId = legacy_id)
     then completion p PlainCall modelId settings
     else chat p PlainCall modelId settings)
  ∧ languageModel p PlainCall modelId settings =
    (if decide (modelId = legacy_id)
     then completion p PlainCall modelId settings
     else chat p PlainCall modelId settings).
Proof.
  intros p. subst p.
  rewrite call_unfold, languageModel_unfold, createLanguageModel_plain.
  by destruct (decide _).
Qed.


(** X7. The exported default instance differs from [createOpenRouter()]
    in the compatibility mode only: entry point by entry point the two
    build models of the same class with the same id, settings, provider
    tag, URL builder and header function and no fetch override, in mode
    "strict" for the default instance and "compatible" for the other. *)
Theorem default_instance_differs_in_mode_only modelId settings :
  Forall2 (λ entry entry',
             ∃ m m', entry PlainCall modelId settings = Return m
                     ∧ entry' PlainCall modelId settings = Return m'
                     ∧ family m = family m'
                     ∧ model_id m = model_id m'
                     ∧ model_settings m = model_settings m'
                     ∧ Config.provider (config m) = Config.provider (config m')
                     ∧ Config.url (config m) = Config.url (config m')
                     ∧ Config.headers (config m) = Config.headers (config m')
                     ∧ Config.fetch (config m) = None
                     ∧ Config.fetch (config m') = None
                     ∧ Config.compatibility (config m) = strict
                     ∧ Config.compatibility (config m') = compatible)
          (entry_points (openrouter (Fetch := Fetch) emptySettings))
          (entry_points (createOpenRouter (Fetch := Fetch) emptySettings PlainCall None)).
Proof.
  unfold openrouter.
  repeat apply Forall2_cons_2; [| | | | apply Forall2_nil_2];
    rewrite ?call_unfold, ?languageModel_unfold, ?createLanguageModel_plain;
    try destruct (decide _); eexists _, _; repeat split.
Qed.
End ModelFacts.

(** ** Further facts about [getHeaders]

    They hold for every implementation of [loadApiKey]. *)

Section MoreHeaderFacts.
Context {Fetch : Type} {utils : ProviderUtils}.

Implicit Types (o : Options.t Fetch) (env : Env) (h : Headers) (name : string).

(** The request [getHeaders] makes to [loadApiKey]. *)
Abbreviation key_request o :=
  {| LoadApiKey.apiKey := Options.apiKey o;
     LoadApiKey.environmentVariableName := "OPENAI_API_KEY";
     LoadApiKey.description := "OpenRouter" |} (only parsing).

(** X8. The header computation fails exactly when the key lookup fails,
    and then with the lookup's own exception; nothing in [options.headers],
    a custom Authorization included, avoids the lookup or its failure. *)
Theorem getHeaders_outcome_follows_lookup o env :
  (∀ e, getHeaders o env = Throw e ↔ loadApiKey (key_request o) env = Throw e)
  ∧ ((∃ h, getHeaders o env = Return h) ↔ ∃ key, loadApiKey (key_request o) env = Return key).
Proof.
  unfold getHeaders.
  destruct (loadApiKey (key_request o) env) as [key | e'] eqn:Hload; cbn; split.
  - intros e. split; discriminate.
  - split; eauto.
  - intros e. split; congruence.
  - split; intros [? ?]; discriminate.
Qed.

(** X9. A headers object always has the properties Authorization,
    OpenRouter-Organization and OpenRouter-Project, and besides them
    exactly the names of [options.headers]. *)
Theorem headers_property_names o env h :
  getHeaders o env = Return h →
  dom h =
  ({[ "Authorization"; "OpenRouter-Organization"; "OpenRouter-Project" ]} : gset string)
  ∪ match Options.headers o with
    | Some hs => dom hs
    | None => ∅
    end.
Proof.
  unfold getHeaders.
  destruct (loadApiKey (key_request o) env) as [key | e]; [| discriminate].
  intros [= <-]. unfold spread.
  destruct (Options.headers o) as [hs |].
  - rewrite dom_union_L, dom_fmap_L, !dom_insert_L, dom_empty_L.
    apply set_eq. intros name. set_unfold. tauto.
  - rewrite !dom_insert_L, dom_empty_L.
    apply set_eq. intros name. set_unfold. tauto.
Qed.

(** X10. The organization and the project are passed on verbatim: each
    header holds the entry of [options.headers] under its name when there
    is one, otherwise the setting itself, and [undefined] when the setting
    is absent. *)
Theorem organization_and_project_forwarded o env h :
  getHeaders o env = Return h →
  h !! "OpenRouter-Organization" =
    Some (match extra_header o "OpenRouter-Organization", Options.organization o with
          | Some custom, _ => str custom
          | None, Some organization => str organization
          | None, None => undefined
          end)
  ∧ h !! "OpenRouter-Project" =
    Some (match extra_header o "OpenRouter-Project", Options.project o with
          | Some custom, _ => str custom
          | None, Some project => str project
          | None, None => undefined
          end).
Proof.
  intros Hh. apply getHeaders_Return in Hh as (key & _ & Hlookup).
  rewrite !Hlookup. split.
  - destruct (extra_header o "OpenRouter-Organization"); [done |].
    by destruct (Options.organization o).
  - destruct (extra_header o "OpenRouter-Project"); [done |].
    by destruct (Options.project o).
Qed.

(** X11. The Authorization header is never [undefined]: it is the entry of
    [options.headers] under that name when there is one, and otherwise
    "Bearer " followed by the key the lookup returned. *)
Theorem authorization_from_lookup o env h :
  getHeaders o env = Return h →
  ∃ key,
    loadApiKey (key_request o) env = Return key
    ∧ h !! "Authorization" =
      Some (str (match extra_header o "Authorization" with
                 | Some custom => custom
                 | None => "Bearer " +:+ key
                 end)).
Proof.
  intros Hh. apply getHeaders_Return in Hh as (key & Hload & Hlookup).
  exists key. split; [exact Hload |].
  rewrite Hlookup. by destruct (extra_header o "Authorization").
Qed.
End MoreHeaderFacts.

(** ** Concrete runs of the further facts *)

(** X1 at a concrete input: a Chat model made with
    [{ baseURL: "https://x.test/v1/" }] and the utilities of the
    specification. *)
Lemma models_share_endpoint_and_mode_witness :
  ∃ m : LanguageModel unit unit,
    chat (createOpenRouter (Fetch := unit) (utils := spec_utils) tt PlainCall (Some custom_endpoint))
      PlainCall "foo/bar" None = Return m
    ∧ Config.url (config m) "/chat" = "https://x.test/v1/chat"
    ∧ Config.compatibility (config m) = compatible.
Proof.
  eexists. split; [reflexivity |].
  destruct (models_share_endpoint_and_mode (Fetch := unit) (utils := spec_utils) tt PlainCall
              (Some custom_endpoint) PlainCall "foo/bar" None
              (chat (createOpenRouter (Fetch := unit) (utils := spec_utils) tt PlainCall (Some custom_endpoint)))
              _ ltac:(repeat first [apply list_elem_of_here | apply list_elem_of_further]) eq_refl)
    as (Hurl & Hmode).
  split; [apply Hurl | apply Hmode].
Defined.

(** X2 at a concrete input: the handle called with the legacy id. *)
Lemma provider_tag_matches_family_witness :
  ∃ m : LanguageModel unit unit,
    call (createOpenRouter (Fetch := unit) (utils := spec_utils) tt PlainCall None)
      PlainCall "openai/gpt-3.5-turbo-instruct" None = Return m
    ∧ Config.provider (config m) = "openrouter.completion".
Proof.
  eexists. split; [reflexivity |].
  apply (provider_tag_matches_family (Fetch := unit) (utils := spec_utils) tt PlainCall None
           PlainCall "openai/gpt-3.5-turbo-instruct" None
           (call (createOpenRouter (Fetch := unit) (utils := spec_utils) tt PlainCall None)) _
           ltac:(repeat first [apply list_elem_of_here | apply list_elem_of_further]) eq_refl).
Defined.

(** X3 at a concrete input: [.completion] without a settings object. *)
Lemma arguments_are_forwarded_witness :
  ∃ m : LanguageModel unit unit,
    completion (createOpenRouter (Fetch := unit) (utils := spec_utils) tt PlainCall None)
      PlainCall "some/model" None = Return m
    ∧ model_id m = "some/model"
    ∧ model_settings m = tt.
Proof.
  eexists. split; [reflexivity |].
  apply (arguments_are_forwarded (Fetch := unit) (utils := spec_utils) tt PlainCall None
           PlainCall "some/model" None
           (completion (createOpenRouter (Fetch := unit) (utils := spec_utils) tt PlainCall None)) _
           ltac:(repeat first [apply list_elem_of_here | apply list_elem_of_further]) eq_refl).
Defined.

(** X9 at a concrete input: one extra header beside the three. *)
Lemma headers_property_names_witness :
  ∃ h : Headers,
    getHeaders (utils := spec_utils) (no_key (Fetch := unit))
      {[ "OPENAI_API_KEY" := "sk-1" ]} = Return h
    ∧ dom h =
      ({[ "Authorization"; "OpenRouter-Organization"; "OpenRouter-Project" ]} : gset string)
      ∪ dom ({[ "X-Title" := "demo" ]} : gmap string string).
Proof.
  eexists. split; [reflexivity |].
  apply (headers_property_names (utils := spec_utils) (no_key (Fetch := unit))
           {[ "OPENAI_API_KEY" := "sk-1" ]}).
  reflexivity.
Defined.

(** X10 at a concrete input: an organization and no project. *)
Lemma organization_and_project_forwarded_witness :
  ∃ h : Headers,
    getHeaders (utils := spec_utils) (key_and_organization (Fetch := unit)) ∅ = Return h
    ∧ h !! "OpenRouter-Organization" = Some (str "org1")
    ∧ h !! "OpenRouter-Project" = Some undefined.
Proof.
  eexists. split; [reflexivity |].
  apply (organization_and_project_forwarded (utils := spec_utils)
           (key_and_organization (Fetch := unit)) ∅).
  reflexivity.
Defined.

(** X11 at a concrete input: the key comes from the environment. *)
Lemma authorization_from_lookup_witness :
  ∃ h : Headers,
    getHeaders (utils := spec_utils) (no_key (Fetch := unit))
      {[ "OPENAI_API_KEY" := "sk-1" ]} = Return h
    ∧ ∃ key, h !! "Authorization" = Some (str ("Bearer " +:+ key)).
Proof.
  eexists. split; [reflexivity |].
  edestruct (authorization_from_lookup (utils := spec_utils) (no_key (Fetch := unit))
               {[ "OPENAI_API_KEY" := "sk-1" ]}) as (key & _ & Hauth);
    [reflexivity |].
  exists key. exact Hauth.
Defined.
